(** * macro-indicators: the HTTP client of [macro_indicators/api.py]

    A shallow embedding of the client library and the proofs of the
    properties its specification states.

    The file has three layers:
    - [Python]: the fragment of Python's built-in data the client handles
      (strings, JSON values, [str], [repr]), then the exception classes;
    - [requests]: the part of the [requests] library the client calls
      ([requests.get], [Response.json], [Response.raise_for_status],
      case-insensitive headers), together with the effect monad [Net];
    - the client itself, with the names of [api.py]. *)

From Stdlib Require Import ZArith NArith List String Ascii Bool Lia DecimalString.
Import ListNotations.

Local Open Scope string_scope.
Local Open Scope Z_scope.

Set Warnings "-register-all".

(* ===================================================================== *)
(** * Python values *)
(* ===================================================================== *)

Module Python.

(** A [str] is modelled as a [string] whose characters are the code points
    below 256. *)

Definition code (c : ascii) : N := N_of_ascii c.

(** [str.isspace] for one character, on the code points below 256:
    TAB..CR, FS..US, SPACE, NEL and NBSP. *)
Definition isspace (c : ascii) : bool :=
  let n := code c in
  ((9 <=? n) && (n <=? 13) || (28 <=? n) && (n <=? 31)
   || (n =? 32) || (n =? 133) || (n =? 160))%N.

(** [str.lower] for one character: A-Z and the Latin-1 capitals. *)
Definition lower_char (c : ascii) : ascii :=
  let n := code c in
  if ((65 <=? n) && (n <=? 90)
      || (192 <=? n) && (n <=? 222) && negb (n =? 215))%N
  then ascii_of_N (n + 32) else c.

Fixpoint str_lower (s : string) : string :=
  match s with
  | EmptyString => EmptyString
  | String c r => String (lower_char c) (str_lower r)
  end.

(** [s.startswith(p)] *)
Definition str_startswith (s p : string) : bool := String.prefix p s.

(** [sub in s] *)
Fixpoint str_contains (sub s : string) : bool :=
  String.prefix sub s
  || match s with
     | EmptyString => false
     | String _ r => str_contains sub r
     end.

Fixpoint str_lstrip (s : string) : string :=
  match s with
  | EmptyString => EmptyString
  | String c r => if isspace c then str_lstrip r else s
  end.

Fixpoint str_rstrip (s : string) : string :=
  match s with
  | EmptyString => EmptyString
  | String c r =>
      match str_rstrip r with
      | EmptyString => if isspace c then EmptyString else String c EmptyString
      | r' => String c r'
      end
  end.

(** [s.strip()] *)
Definition str_strip (s : string) : string := str_rstrip (str_lstrip s).

(** Truthiness of a [str] and the expression [a or b] on strings. *)
Definition str_truthy (s : string) : bool :=
  match s with EmptyString => false | _ => true end.

Definition str_or (a b : string) : string := if str_truthy a then a else b.

(** [str(n)] for an [int]. *)
Definition int_str (n : Z) : string := NilZero.string_of_int (Z.to_int n).

(** [", ".join(l)] *)
Fixpoint join_comma (l : list string) : string :=
  match l with
  | [] => EmptyString
  | [x] => x
  | x :: r => x ++ ", " ++ join_comma r
  end.

(** The values [json.loads] produces.  A [float] is kept as its [repr],
    the only thing the client ever asks of it. *)
Inductive pyval : Type :=
| PyNone
| PyBool (b : bool)
| PyInt (n : Z)
| PyFloat (repr : string)
| PyStr (s : string)
| PyList (l : list pyval)
| PyDict (d : list (string * pyval)).

(** A [dict] is an association list in insertion order; a key is looked up
    at its first entry. *)
Fixpoint dict_get {A : Type} (d : list (string * A)) (k : string) : option A :=
  match d with
  | [] => None
  | (k', v) :: r => if String.eqb k' k then Some v else dict_get r k
  end.

(** [k in d] *)
Definition dict_contains {A : Type} (d : list (string * A)) (k : string) : bool :=
  match dict_get d k with Some _ => true | None => false end.

(** ** [repr] of a [str] *)

Definition squote : ascii := ascii_of_N 39.
Definition dquote : ascii := ascii_of_N 34.
Definition backslash : ascii := ascii_of_N 92.

Definition hexdigit (n : N) : ascii :=
  if (n <? 10)%N then ascii_of_N (48 + n) else ascii_of_N (87 + n).

Definition hex_escape (c : ascii) : string :=
  let n := code c in
  String backslash
    (String "x" (String (hexdigit (n / 16)) (String (hexdigit (n mod 16)) EmptyString))).

(** Characters [repr] writes as [\xhh]: the C0 controls and DEL, the C1
    controls, NBSP and the soft hyphen. *)
Definition unprintable (c : ascii) : bool :=
  let n := code c in
  ((n <? 32) || (n =? 127) || (128 <=? n) && (n <=? 160) || (n =? 173))%N.

Fixpoint has_char (q : ascii) (s : string) : bool :=
  match s with
  | EmptyString => false
  | String c r => Ascii.eqb c q || has_char q r
  end.

(** The quote [repr] picks: a double quote only when the text has a single
    quote and no double quote. *)
Definition repr_quote (s : string) : ascii :=
  if has_char squote s && negb (has_char dquote s) then dquote else squote.

Definition repr_char (quote c : ascii) : string :=
  if Ascii.eqb c quote || Ascii.eqb c backslash then String backslash (String c EmptyString)
  else if (code c =? 9)%N then String backslash "t"
  else if (code c =? 10)%N then String backslash "n"
  else if (code c =? 13)%N then String backslash "r"
  else if unprintable c then hex_escape c
  else String c EmptyString.

Fixpoint repr_body (quote : ascii) (s : string) : string :=
  match s with
  | EmptyString => EmptyString
  | String c r => repr_char quote c ++ repr_body quote r
  end.

Definition str_repr (s : string) : string :=
  let q := repr_quote s in
  String q (repr_body q s ++ String q EmptyString).

(** ** [repr] and [str] of a value *)

Fixpoint py_repr (v : pyval) : string :=
  match v with
  | PyNone => "None"
  | PyBool true => "True"
  | PyBool false => "False"
  | PyInt n => int_str n
  | PyFloat r => r
  | PyStr s => str_repr s
  | PyList l => "[" ++ join_comma (map py_repr l) ++ "]"
  | PyDict d =>
      "{" ++ join_comma (map (fun kv => str_repr (fst kv) ++ ": " ++ py_repr (snd kv)) d)
          ++ "}"
  end.

(** [str(v)]: the text itself for a [str], [repr(v)] for everything else. *)
Definition py_str (v : pyval) : string :=
  match v with
  | PyStr s => s
  | _ => py_repr v
  end.

End Python.
Export Python.

(* ===================================================================== *)
(** * Exceptions *)
(* ===================================================================== *)

(** The classes of [api.py]: [MacroAPIError(RuntimeError)],
    [BadRequest(MacroAPIError)] and [NotFound(MacroAPIError)]. *)
Inductive MacroClass := MacroAPIError | BadRequest | NotFound.

(** The classes of [requests.exceptions] the client can meet. *)
Inductive RequestsClass :=
| RequestException | HTTPError | ConnectionError | Timeout
| InvalidJSONError | JSONDecodeError.

Inductive PyClass :=
| Exception
| RuntimeError
| OSError
| Macro (c : MacroClass)
| Requests (c : RequestsClass).

(** The base named first in each [class] statement. *)
Definition base (c : PyClass) : option PyClass :=
  match c with
  | Exception => None
  | RuntimeError => Some Exception
  | OSError => Some Exception
  | Macro MacroAPIError => Some RuntimeError
  | Macro BadRequest => Some (Macro MacroAPIError)
  | Macro NotFound => Some (Macro MacroAPIError)
  | Requests RequestException => Some OSError
  | Requests HTTPError => Some (Requests RequestException)
  | Requests ConnectionError => Some (Requests RequestException)
  | Requests Timeout => Some (Requests RequestException)
  | Requests InvalidJSONError => Some (Requests RequestException)
  | Requests JSONDecodeError => Some (Requests InvalidJSONError)
  end.

Definition MacroClass_eqb (a b : MacroClass) : bool :=
  match a, b with
  | MacroAPIError, MacroAPIError | BadRequest, BadRequest | NotFound, NotFound => true
  | _, _ => false
  end.

Definition RequestsClass_eqb (a b : RequestsClass) : bool :=
  match a, b with
  | RequestException, RequestException | HTTPError, HTTPError
  | ConnectionError, ConnectionError | Timeout, Timeout
  | InvalidJSONError, InvalidJSONError | JSONDecodeError, JSONDecodeError => true
  | _, _ => false
  end.

Definition PyClass_eqb (a b : PyClass) : bool :=
  match a, b with
  | Exception, Exception | RuntimeError, RuntimeError | OSError, OSError => true
  | Macro x, Macro y => MacroClass_eqb x y
  | Requests x, Requests y => RequestsClass_eqb x y
  | _, _ => false
  end.

(** [issubclass c d], walking up the bases; the hierarchy is four deep. *)
Fixpoint issubclass_fuel (fuel : nat) (c d : PyClass) : bool :=
  PyClass_eqb c d
  || match fuel with
     | O => false
     | S k => match base c with
              | Some b => issubclass_fuel k b d
              | None => false
              end
     end.

Definition issubclass (c d : PyClass) : bool := issubclass_fuel 4 c d.

(** An exception object.  [MacroAPIError.__init__] stores the message and
    the keyword-only [status_code]; the exceptions of [requests] have a
    message only. *)
Inductive exn :=
| LibraryError (cls : MacroClass) (message : string) (status_code : option Z)
| ForeignError (cls : RequestsClass) (message : string).

Definition exc_class (e : exn) : PyClass :=
  match e with
  | LibraryError c _ _ => Macro c
  | ForeignError c _ => Requests c
  end.

(** [str(e)] *)
Definition exc_str (e : exn) : string :=
  match e with
  | LibraryError _ m _ => m
  | ForeignError _ m => m
  end.

Definition isinstance (e : exn) (c : PyClass) : bool := issubclass (exc_class e) c.

(* ===================================================================== *)
(** * The effect monad: one network, exceptions *)
(* ===================================================================== *)

(** What [requests.get] is called with. *)
Record Request := mkRequest {
  req_url : string;
  req_params : option (list (string * pyval));
  req_timeout : Z
}.

(** [requests.Response], as far as the client reads it.  [headers] holds the
    entries of the response's [CaseInsensitiveDict], one per header name;
    [json_result] is what the method [json()] does on this response: the
    decoded value, or the message of the [JSONDecodeError] it raises. *)
Record Response := mkResponse {
  status_code : Z;
  reason : string;
  url : string;
  headers : list (string * string);
  text : string;
  json_result : pyval + string
}.

(** The network answers a request with a response or makes [requests.get]
    raise; [sent] records the requests issued so far, oldest first. *)
Record World := mkWorld {
  server : Request -> Response + exn;
  sent : list Request
}.

Inductive Result (A : Type) : Type :=
| Return (a : A)
| Raise (e : exn).
Arguments Return {A} a.
Arguments Raise {A} e.

Definition Net (A : Type) : Type := World -> Result A * World.

Definition ret {A : Type} (a : A) : Net A := fun w => (Return a, w).

Definition raise {A : Type} (e : exn) : Net A := fun w => (Raise e, w).

Definition bind {A B : Type} (m : Net A) (k : A -> Net B) : Net B :=
  fun w =>
    match m w with
    | (Return a, w') => k a w'
    | (Raise e, w') => (Raise e, w')
    end.

(** [try: m  except C as e: handler e] *)
Definition try_except {A : Type} (m : Net A) (C : PyClass) (handler : exn -> Net A)
  : Net A :=
  fun w =>
    match m w with
    | (Return a, w') => (Return a, w')
    | (Raise e, w') => if isinstance e C then handler e w' else (Raise e, w')
    end.

Declare Scope net_scope.
Delimit Scope net_scope with net.
Notation "x <- m ;; k" := (bind m (fun x => k))
  (at level 61, m at next level, right associativity) : net_scope.
Notation "m ;;; k" := (bind m (fun _ => k))
  (at level 61, right associativity) : net_scope.
Local Open Scope net_scope.

(* ===================================================================== *)
(** * The [requests] library *)
(* ===================================================================== *)

Module requests.

(** [requests.get(url, params=params, timeout=timeout)] *)
Definition get (url : string) (params : option (list (string * pyval))) (timeout : Z)
  : Net Response :=
  fun w =>
    let rq := mkRequest url params timeout in
    let w' := mkWorld (server w) (sent w ++ [rq]) in
    match server w rq with
    | inl resp => (Return resp, w')
    | inr e => (Raise e, w')
    end.

(** [headers.get(key, default)] on a [CaseInsensitiveDict]: keys are
    compared by their [lower()]. *)
Fixpoint headers_get (h : list (string * string)) (key default : string) : string :=
  match h with
  | [] => default
  | (k, v) :: r =>
      if String.eqb (str_lower k) (str_lower key) then v else headers_get r key default
  end.

(** [resp.json()]: the decoded body, or the [JSONDecodeError] of a body that
    is no JSON text.  Other exceptions a decoder may let through are not
    modelled. *)
Definition json (resp : Response) : Net pyval :=
  match json_result resp with
  | inl v => ret v
  | inr msg => raise (ForeignError JSONDecodeError msg)
  end.

(** [resp.raise_for_status()]: an [HTTPError] for a status in 400..599,
    nothing for any other status. *)
Definition raise_for_status (resp : Response) : Net unit :=
  let sc := status_code resp in
  let http_error_msg :=
    if (400 <=? sc) && (sc <? 500) then
      int_str sc ++ " Client Error: " ++ reason resp ++ " for url: " ++ url resp
    else if (500 <=? sc) && (sc <? 600) then
      int_str sc ++ " Server Error: " ++ reason resp ++ " for url: " ++ url resp
    else EmptyString in
  if str_truthy http_error_msg then raise (ForeignError HTTPError http_error_msg)
  else ret tt.

End requests.

(* ===================================================================== *)
(** * The client: [api.py] *)
(* ===================================================================== *)

Definition _BASE_URL : string := "https://macro-indicators.fly.dev".
Definition _TIMEOUT : Z := 30.

(** [MacroAPIError(message, status_code=...)] and its subclasses. *)
Definition construct (cls : MacroClass) (message : string) (status_code : option Z) : exn :=
  LibraryError cls message status_code.

(** [_extract_detail].  The [try] block either returns a value ([Some]) or
    falls through to the last line ([None]); [except Exception: pass] falls
    through as well. *)
Definition _extract_detail (resp : Response) : Net string :=
  let ctype := requests.headers_get (headers resp) "content-type" EmptyString in
  returned <-
    (if str_contains "application/json" ctype then
       try_except
         (js <- requests.json resp ;;
          match js with
          | PyDict d =>
              if dict_contains d "detail" then
                match dict_get d "detail" with
                | Some v => ret (Some (py_str v))
                | None => ret None
                end
              else ret None
          | _ => ret None
          end)
         Exception
         (fun _ => ret None)
     else ret None) ;;
  match returned with
  | Some s => ret s
  | None =>
      ret (str_or (str_strip (str_or (text resp) EmptyString))
                  ("HTTP " ++ int_str (status_code resp)))
  end.

(** [_get] *)
Definition _get (path : string) (params : option (list (string * pyval))) : Net pyval :=
  let url := _BASE_URL ++ path in
  resp <-
    try_except (requests.get url params _TIMEOUT)
      (Requests RequestException)
      (fun e =>
         raise (construct MacroAPIError ("Network error calling " ++ url ++ ": " ++ exc_str e)
                    None)) ;;
  if status_code resp =? 400 then
    detail <- _extract_detail resp ;; raise (construct BadRequest detail (Some 400))
  else if status_code resp =? 404 then
    detail <- _extract_detail resp ;; raise (construct NotFound detail (Some 404))
  else
    try_except (requests.raise_for_status resp)
      (Requests HTTPError)
      (fun _ =>
         detail <- _extract_detail resp ;;
         raise (construct MacroAPIError detail (Some (status_code resp)))) ;;;
    if str_startswith
         (requests.headers_get (headers resp) "content-type" EmptyString)
         "application/json"
    then requests.json resp
    else ret (PyDict [("raw", PyStr (text resp))]).

(** The public functions. *)

Definition root : Net pyval := _get "/" None.

Definition get_country_codes : Net pyval := _get "/country-codes" None.

Definition get_countries_with_names : Net pyval := _get "/countries" None.

Definition get_indicators : Net pyval := _get "/indicators" None.

Definition get_country_data (country_code indicator start_year end_year : pyval)
  : Net pyval :=
  _get "/data"
    (Some [("country_code", country_code);
           ("indicator", indicator);
           ("start_year", start_year);
           ("end_year", end_year)]).

(* ===================================================================== *)
(** * Specification-level definitions *)
(* ===================================================================== *)

(** The content type the client reads off a response. *)
Definition content_type (resp : Response) : string :=
  requests.headers_get (headers resp) "content-type" EmptyString.

(** The request a call with [path] and [params] puts on the wire. *)
Definition request_of (path : string) (params : option (list (string * pyval)))
  : Request :=
  mkRequest (_BASE_URL ++ path) params _TIMEOUT.

(** The world after one more request. *)
Definition after (w : World) (rq : Request) : World :=
  mkWorld (server w) (sent w ++ [rq]).

(** The detail extraction policy in the words of the specification: the
    [detail] entry of a JSON mapping body when the content type is JSON... *)
Definition json_detail (resp : Response) : option pyval :=
  if str_contains "application/json" (content_type resp) then
    match json_result resp with
    | inl (PyDict d) => dict_get d "detail"
    | _ => None
    end
  else None.

(** ...its [str] as the message; otherwise the trimmed body, or
    ["HTTP <status_code>"] when that is empty. *)
Definition detail_policy (resp : Response) : string :=
  match json_detail resp with
  | Some v => py_str v
  | None =>
      let trimmed := str_strip (text resp) in
      if String.eqb trimmed EmptyString
      then "HTTP " ++ int_str (status_code resp)
      else trimmed
  end.

(** The failure kind the specification assigns to a status code, as the
    code realises it: 400, 404, the rest of 400..599, and no failure for
    any other status. *)
Definition failure_kind (sc : Z) : option MacroClass :=
  if sc =? 400 then Some BadRequest
  else if sc =? 404 then Some NotFound
  else if (400 <=? sc) && (sc <? 600) then Some MacroAPIError
  else None.


(* ===================================================================== *)
(** * Sample responses and networks *)
(* ===================================================================== *)

Module Samples.

(** [s] between double quotes, as it stands in a JSON text. *)
Definition q (s : string) : string := String dquote (s ++ String dquote EmptyString).

Definition no_json : pyval + string := inr "Expecting value: line 1 column 1 (char 0)".

(** A network whose server answers every request with [resp]. *)
Definition always (resp : Response) : World := mkWorld (fun _ => inl resp) [].

(** A network on which [requests.get] raises [e]. *)
Definition failing (e : exn) : World := mkWorld (fun _ => inr e) [].

Definition data_url : string := "https://macro-indicators.fly.dev/data".

Definition resp_400 : Response :=
  mkResponse 400 "Bad Request" data_url
    [("content-type", "application/json")]
    ("{" ++ q "detail" ++ ":" ++ q "start_year must be <= end_year" ++ "}")
    (inl (PyDict [("detail", PyStr "start_year must be <= end_year")])).

Definition resp_404 : Response :=
  mkResponse 404 "Not Found" data_url [] EmptyString no_json.

Definition resp_422 : Response :=
  mkResponse 422 "Unprocessable Entity" data_url
    [("Content-Type", "application/json")]
    ("{" ++ q "detail" ++ ":[{" ++ q "msg" ++ ":" ++ q "field required" ++ "}]}")
    (inl (PyDict [("detail", PyList [PyDict [("msg", PyStr "field required")]])])).

Definition resp_503 : Response :=
  mkResponse 503 "Service Unavailable" data_url
    [("Content-Type", "text/html")] "  Service Unavailable
" no_json.

Definition resp_101 : Response :=
  mkResponse 101 "Switching Protocols" data_url [] EmptyString no_json.

Definition resp_600 : Response :=
  mkResponse 600 "Unknown" data_url [("Content-Type", "text/plain")] "odd" no_json.

Definition resp_200_text : Response :=
  mkResponse 200 "OK" data_url [("Content-Type", "text/plain")] "pong" no_json.


Definition welcome : pyval :=
  PyDict [("message", PyStr "Welcome to the Macroeconomy Indicators API")].

Definition resp_200_json : Response :=
  mkResponse 200 "OK" "https://macro-indicators.fly.dev/"
    [("Content-Type", "application/json")]
    ("{" ++ q "message" ++ ":" ++ q "Welcome to the Macroeconomy Indicators API" ++ "}")
    (inl welcome).

(** A 200 that declares JSON and carries a page of HTML. *)
Definition resp_200_bad_json : Response :=
  mkResponse 200 "OK" data_url
    [("Content-Type", "application/json")] "<html>gateway</html>" no_json.






Definition connection_refused : exn :=
  ForeignError ConnectionError "Connection refused".

End Samples.
Import Samples.

(* ===================================================================== *)
(** * Responses that differ in one respect *)
(* ===================================================================== *)

(** [resp] with its headers replaced. *)
Definition with_headers (resp : Response) (h : list (string * string)) : Response :=
  mkResponse (status_code resp) (reason resp) (url resp) h (text resp)
    (json_result resp).

(** [resp] with its status replaced. *)
Definition with_status (resp : Response) (sc : Z) (why : string) : Response :=
  mkResponse sc why (url resp) (headers resp) (text resp) (json_result resp).

(** Header lists that agree entry by entry up to the letter case of the
    names. *)
Definition same_headers (h1 h2 : list (string * string)) : Prop :=
  Forall2 (fun a b => str_lower (fst a) = str_lower (fst b) /\ snd a = snd b) h1 h2.

(** No character of [s] is white space. *)
Fixpoint no_space (s : string) : bool :=
  match s with
  | EmptyString => true
  | String c r => negb (isspace c) && no_space r
  end.

Module Variants.

(** A 500 whose content type only mentions [application/json] further in,
    with a JSON body. *)
Definition resp_500_embedded : Response :=
  mkResponse 500 "Internal Server Error" data_url
    [("Content-Type", "text/plain;x=application/json")]
    ("{" ++ q "detail" ++ ":" ++ q "boom" ++ "}")
    (inl (PyDict [("detail", PyStr "boom")])).

(** The same headers and body under status 200. *)
Definition resp_200_embedded : Response := with_status resp_500_embedded 200 "OK".

(** A JSON answer that happens to be a mapping with the single key [raw]. *)
Definition resp_200_raw_json : Response :=
  mkResponse 200 "OK" data_url [("Content-Type", "application/json")]
    ("{" ++ q "raw" ++ ":" ++ q "pong" ++ "}")
    (inl (PyDict [("raw", PyStr "pong")])).

End Variants.
Import Variants.

(* ===================================================================== *)
(** * Strings *)
(* ===================================================================== *)

Lemma prefix_refl (s : string) : String.prefix s s = true.
Proof.
  induction s as [|c s IH]; simpl; [reflexivity|].
  destruct (ascii_dec c c) as [_|N]; [exact IH | now elim N].
Qed.

Lemma prefix_append (s t : string) : String.prefix s (s ++ t) = true.
Proof.
  induction s as [|c s IH]; simpl.
  - now destruct t.
  - destruct (ascii_dec c c) as [_|N]; [exact IH | now elim N].
Qed.

Lemma str_contains_prefix (sub s : string) :
  String.prefix sub s = true -> str_contains sub s = true.
Proof. intros H. destruct s; cbn [str_contains]; rewrite H; reflexivity. Qed.

Lemma str_contains_skip (sub t u : string) :
  str_contains sub u = true -> str_contains sub (t ++ u) = true.
Proof.
  intros H. induction t as [|c t IH]; [exact H|].
  cbn [append str_contains]. rewrite IH. apply orb_true_r.
Qed.

Lemma startswith_contains (s p : string) :
  str_startswith s p = true -> str_contains p s = true.
Proof. apply str_contains_prefix. Qed.

Lemma str_or_empty (s : string) : str_or s EmptyString = s.
Proof. now destruct s. Qed.

Lemma str_or_eqb (a b : string) :
  str_or a b = if String.eqb a EmptyString then b else a.
Proof. now destruct a. Qed.

(* ===================================================================== *)
(** * The monad *)
(* ===================================================================== *)

Lemma bind_ret {A B : Type} (a : A) (k : A -> Net B) (w : World) :
  bind (ret a) k w = k a w.
Proof. reflexivity. Qed.

Lemma ret_bind {A : Type} (m : Net A) (w : World) : bind m ret w = m w.
Proof. unfold bind, ret. destruct (m w) as [[a|e] w']; reflexivity. Qed.

Lemma bind_bind {A B C : Type} (m : Net A) (k : A -> Net B) (h : B -> Net C)
      (w : World) :
  bind (bind m k) h w = bind m (fun a => bind (k a) h) w.
Proof. unfold bind. destruct (m w) as [[a|e] w']; reflexivity. Qed.

Lemma bind_raise {A B : Type} (e : exn) (k : A -> Net B) (w : World) :
  bind (raise e) k w = (Raise e, w).
Proof. reflexivity. Qed.

Lemma try_except_ret {A : Type} (a : A) (C : PyClass) (h : exn -> Net A) (w : World) :
  try_except (ret a) C h w = (Return a, w).
Proof. reflexivity. Qed.

Lemma try_except_raise {A : Type} (e : exn) (C : PyClass) (h : exn -> Net A)
      (w : World) :
  try_except (raise e) C h w = if isinstance e C then h e w else (Raise e, w).
Proof. reflexivity. Qed.

(** Every modelled class is an [Exception]: [except Exception] catches all. *)
Lemma isinstance_Exception (e : exn) : isinstance e Exception = true.
Proof. destruct e as [[]|[]]; reflexivity. Qed.

(* ===================================================================== *)
(** * Running the client *)
(* ===================================================================== *)

(** [_extract_detail] refines the policy: it always returns, returns the
    policy's message, and does not touch the network. *)
Lemma extract_detail_run (resp : Response) (w : World) :
  _extract_detail resp w = (Return (detail_policy resp), w).
Proof.
  unfold _extract_detail, detail_policy, json_detail, content_type.
  unfold bind, try_except, requests.json, ret, raise.
  rewrite str_or_empty, str_or_eqb.
  destruct (str_contains _ _); [|reflexivity].
  destruct (json_result resp) as [v|msg]; [|reflexivity].
  destruct v; try reflexivity.
  unfold dict_contains.
  destruct (dict_get d "detail"); reflexivity.
Qed.

Lemma str_truthy_append (a b : string) :
  str_truthy b = true -> str_truthy (a ++ b) = true.
Proof. intros H. destruct a; [exact H | reflexivity]. Qed.

(** [raise_for_status] raises exactly on the statuses 400..599. *)
Lemma raise_for_status_error (resp : Response) (w : World) :
  400 <= status_code resp < 600 ->
  exists msg, requests.raise_for_status resp w = (Raise (ForeignError HTTPError msg), w).
Proof.
  intros Hsc. unfold requests.raise_for_status.
  destruct ((400 <=? status_code resp) && (status_code resp <? 500)) eqn:H4.
  - rewrite str_truthy_append by reflexivity. eexists. reflexivity.
  - assert (H5 : (500 <=? status_code resp) && (status_code resp <? 600) = true).
    { apply andb_false_iff in H4. apply andb_true_iff. lia. }
    rewrite H5. rewrite str_truthy_append by reflexivity. eexists. reflexivity.
Qed.

Lemma raise_for_status_ok (resp : Response) (w : World) :
  status_code resp < 400 \/ 600 <= status_code resp ->
  requests.raise_for_status resp w = (Return tt, w).
Proof.
  intros Hsc. unfold requests.raise_for_status.
  assert (H4 : (400 <=? status_code resp) && (status_code resp <? 500) = false).
  { apply andb_false_iff. lia. }
  assert (H5 : (500 <=? status_code resp) && (status_code resp <? 600) = false).
  { apply andb_false_iff. lia. }
  rewrite H4, H5. reflexivity.
Qed.

(** One call of [_get] on which [requests.get] raises a
    [RequestException]. *)
Lemma get_run_unreachable
      (w : World) (path : string) (params : option (list (string * pyval)))
      (e : exn) :
  server w (request_of path params) = inr e ->
  isinstance e (Requests RequestException) = true ->
  _get path params w =
    (Raise (LibraryError MacroAPIError
              ("Network error calling " ++ (_BASE_URL ++ path) ++ ": " ++ exc_str e)
              None),
     after w (request_of path params)).
Proof.
  intros Hsrv Hinst. unfold request_of in Hsrv.
  unfold _get, after, request_of.
  unfold bind at 1. unfold try_except at 1. unfold requests.get.
  rewrite Hsrv, Hinst. reflexivity.
Qed.

(** The decoding step never raises one of the client's own failures. *)
Lemma decoding_not_library (resp : Response) (w : World)
      (cls : MacroClass) (msg : string) (sc : option Z) :
  fst ((if str_startswith (content_type resp) "application/json"
        then requests.json resp
        else ret (PyDict [("raw", PyStr (text resp))])) w)
  <> Raise (LibraryError cls msg sc).
Proof.
  unfold requests.json, ret, raise.
  destruct (str_startswith _ _); [|discriminate].
  destruct (json_result resp); discriminate.
Qed.

Lemma failure_kind_none (sc : Z) :
  sc < 400 \/ 600 <= sc -> failure_kind sc = None.
Proof.
  intros H. unfold failure_kind.
  destruct (Z.eqb_spec sc 400); [lia|].
  destruct (Z.eqb_spec sc 404); [lia|].
  destruct ((400 <=? sc) && (sc <? 600)) eqn:E; [|reflexivity].
  apply andb_true_iff in E. lia.
Qed.

Lemma failure_kind_other (sc : Z) :
  400 <= sc < 600 -> sc <> 400 -> sc <> 404 -> failure_kind sc = Some MacroAPIError.
Proof.
  intros H N400 N404. unfold failure_kind.
  destruct (Z.eqb_spec sc 400); [lia|].
  destruct (Z.eqb_spec sc 404); [lia|].
  destruct ((400 <=? sc) && (sc <? 600)) eqn:E; [reflexivity|].
  apply andb_false_iff in E. lia.
Qed.

(** One call of [_get] that the server answers: the status decides between
    a failure carrying the extracted detail and the decoding step. *)
Section Answered.

Variables (w : World) (path : string) (params : option (list (string * pyval))).
Variable resp : Response.
Hypothesis Hsrv : server w (request_of path params) = inl resp.

Lemma get_run :
  _get path params w =
    match failure_kind (status_code resp) with
    | Some cls =>
        (Raise (LibraryError cls (detail_policy resp) (Some (status_code resp))),
         after w (request_of path params))
    | None =>
        (if str_startswith (content_type resp) "application/json"
         then requests.json resp
         else ret (PyDict [("raw", PyStr (text resp))]))
          (after w (request_of path params))
    end.
Proof.
  unfold request_of in *.
  unfold _get, failure_kind, after.
  unfold bind at 1. unfold try_except at 1. unfold requests.get.
  rewrite Hsrv.
  destruct (Z.eqb_spec (status_code resp) 400) as [E400|N400].
  { unfold bind. rewrite extract_detail_run. unfold raise, construct.
    rewrite E400. reflexivity. }
  destruct (Z.eqb_spec (status_code resp) 404) as [E404|N404].
  { unfold bind. rewrite extract_detail_run. unfold raise, construct.
    rewrite E404. reflexivity. }
  unfold bind at 1. unfold try_except.
  destruct ((400 <=? status_code resp) && (status_code resp <? 600)) eqn:Hrange.
  - apply andb_true_iff in Hrange.
    destruct (raise_for_status_error resp
                (mkWorld (server w)
                   (sent w ++ [mkRequest (_BASE_URL ++ path) params _TIMEOUT])))
      as [msg Hmsg]; [lia|].
    rewrite Hmsg. cbn [isinstance exc_class].
    change (issubclass (Requests HTTPError) (Requests HTTPError)) with true.
    cbv iota. unfold bind. rewrite extract_detail_run. reflexivity.
  - apply andb_false_iff in Hrange.
    rewrite raise_for_status_ok by lia. reflexivity.
Qed.

(** A call the server answers with a status that is no failure returns what
    the decoding step returns. *)
Lemma get_decodes :
  failure_kind (status_code resp) = None ->
  (forall cls msg sc,
      fst (_get path params w) <> Raise (LibraryError cls msg sc))
  /\ (forall v,
         str_startswith (content_type resp) "application/json" = true ->
         json_result resp = inl v ->
         _get path params w = (Return v, after w (request_of path params)))
  /\ (str_startswith (content_type resp) "application/json" = false ->
      _get path params w =
        (Return (PyDict [("raw", PyStr (text resp))]), after w (request_of path params))).
Proof.
  intros Hkind. rewrite get_run, Hkind.
  split; [|split].
  - intros cls msg sc. apply decoding_not_library.
  - intros v Hct Hjs. rewrite Hct. unfold requests.json. rewrite Hjs. reflexivity.
  - intros Hct. rewrite Hct. reflexivity.
Qed.

End Answered.

(* ===================================================================== *)
(** * Examples *)
(* ===================================================================== *)

Example strip_both_ends :
  str_strip (String (ascii_of_N 9) " a  b  ") = "a  b".
Proof. reflexivity. Qed.

Example strip_blank : str_strip "   " = EmptyString.
Proof. reflexivity. Qed.

Example header_names_ignore_case :
  requests.headers_get [("Content-Type", "text/html")] "content-type" EmptyString
  = "text/html".
Proof. reflexivity. Qed.

Example header_missing :
  requests.headers_get [("Server", "uvicorn")] "content-type" EmptyString = EmptyString.
Proof. reflexivity. Qed.

Example contains_inside :
  str_contains "application/json" "application/json; charset=utf-8" = true
  /\ str_contains "application/json" "text/html" = false.
Proof. split; reflexivity. Qed.

Example str_of_values :
  py_str (PyStr "Country not found") = "Country not found"
  /\ py_str (PyInt (-7)) = "-7"
  /\ py_str (PyList [PyNone; PyBool true; PyStr "it's"])
     = "[None, True, " ++ Samples.q "it's" ++ "]".
Proof. repeat split. Qed.

Example subclasses :
  issubclass (Macro NotFound) (Macro MacroAPIError) = true
  /\ issubclass (Macro MacroAPIError) (Macro NotFound) = false
  /\ issubclass (Requests Timeout) (Requests RequestException) = true
  /\ issubclass (Requests JSONDecodeError) (Macro MacroAPIError) = false.
Proof. repeat split. Qed.

Example detail_400 :
  detail_policy resp_400 = "start_year must be <= end_year".
Proof. reflexivity. Qed.

Example detail_404 : detail_policy resp_404 = "HTTP 404".
Proof. reflexivity. Qed.

Example detail_422 : detail_policy resp_422 = "[{'msg': 'field required'}]".
Proof. reflexivity. Qed.

Example detail_503 : detail_policy resp_503 = "Service Unavailable".
Proof. reflexivity. Qed.

Example get_404 :
  fst (_get "/data" None (always resp_404))
  = Raise (LibraryError NotFound "HTTP 404" (Some 404)).
Proof. reflexivity. Qed.

Example get_200 : fst (root (always resp_200_json)) = Return welcome.
Proof. reflexivity. Qed.

(* ===================================================================== *)
(** * Status classification *)
(* ===================================================================== *)

(** C1, as worded, does not hold: a status outside 200..399 that is neither
    400 nor 404 need not raise.  The server answers with status 600 (and,
    second, with status 101); [_get] raises no failure and returns the
    wrapped body. *)
Lemma status_outside_success_range_returns :
  (~ 200 <= status_code resp_600 <= 399)
  /\ status_code resp_600 <> 400 /\ status_code resp_600 <> 404
  /\ fst (_get "/data" None (always resp_600)) = Return (PyDict [("raw", PyStr "odd")])
  /\ (~ exists msg, fst (_get "/data" None (always resp_600))
                    = Raise (LibraryError MacroAPIError msg (Some 600)))
  /\ (~ 200 <= status_code resp_101 <= 399)
  /\ fst (_get "/data" None (always resp_101))
     = Return (PyDict [("raw", PyStr EmptyString)])
  /\ (~ exists msg, fst (_get "/data" None (always resp_101))
                    = Raise (LibraryError MacroAPIError msg (Some 101))).
Proof.
  repeat split; try (cbn; lia); try reflexivity.
  - intros [msg H]. vm_compute in H. discriminate H.
  - intros [msg H]. vm_compute in H. discriminate H.
Qed.

(** C1, amended: 400 raises [BadRequest] with status code 400, 404 raises
    [NotFound] with status code 404, every other status from 400 to 599
    raises the base [MacroAPIError] with the status code received, and a
    status below 400 or from 600 on raises none of the three and goes on
    to decoding. *)
Theorem status_classification
        (w : World) (path : string) (params : option (list (string * pyval)))
        (resp : Response) :
  server w (request_of path params) = inl resp ->
  (status_code resp = 400 ->
   _get path params w =
     (Raise (LibraryError BadRequest (detail_policy resp) (Some 400)),
      after w (request_of path params)))
  /\ (status_code resp = 404 ->
      _get path params w =
        (Raise (LibraryError NotFound (detail_policy resp) (Some 404)),
         after w (request_of path params)))
  /\ (400 <= status_code resp < 600 ->
      status_code resp <> 400 -> status_code resp <> 404 ->
      _get path params w =
        (Raise (LibraryError MacroAPIError (detail_policy resp)
                  (Some (status_code resp))),
         after w (request_of path params)))
  /\ (status_code resp < 400 \/ 600 <= status_code resp ->
      (forall cls msg sc,
          fst (_get path params w) <> Raise (LibraryError cls msg sc))
      /\ _get path params w =
           (if str_startswith (content_type resp) "application/json"
            then requests.json resp
            else ret (PyDict [("raw", PyStr (text resp))]))
             (after w (request_of path params))).
Proof.
  intros Hsrv. pose proof (get_run _ _ _ _ Hsrv) as Hrun.
  repeat split.
  - intros E. rewrite Hrun, E. reflexivity.
  - intros E. rewrite Hrun, E. reflexivity.
  - intros Hr N400 N404. rewrite Hrun, failure_kind_other by assumption. reflexivity.
  - intros cls msg sc. rewrite Hrun, failure_kind_none by assumption.
    apply decoding_not_library.
  - rewrite Hrun, failure_kind_none by assumption. reflexivity.
Qed.

Lemma status_classification_witness :
  _get "/data" None (always resp_400)
  = (Raise (LibraryError BadRequest "start_year must be <= end_year" (Some 400)),
     after (always resp_400) (request_of "/data" None))
  /\ _get "/data" None (always resp_404)
     = (Raise (LibraryError NotFound "HTTP 404" (Some 404)),
        after (always resp_404) (request_of "/data" None))
  /\ _get "/data" None (always resp_503)
     = (Raise (LibraryError MacroAPIError "Service Unavailable" (Some 503)),
        after (always resp_503) (request_of "/data" None))
  /\ (forall cls msg sc,
         fst (_get "/data" None (always resp_600)) <> Raise (LibraryError cls msg sc)).
Proof.
  split; [|split; [|split]].
  - apply (status_classification (always resp_400) "/data" None resp_400);
      reflexivity.
  - apply (status_classification (always resp_404) "/data" None resp_404);
      reflexivity.
  - apply (status_classification (always resp_503) "/data" None resp_503);
      [reflexivity | simpl; lia | simpl; lia | simpl; lia].
  - apply (status_classification (always resp_600) "/data" None resp_600);
      [reflexivity | simpl; lia].
Defined.

(* ===================================================================== *)
(** * Detail extraction *)
(* ===================================================================== *)

Lemma json_detail_some (resp : Response) (v : pyval) :
  json_detail resp = Some v <->
  str_contains "application/json" (content_type resp) = true
  /\ exists d, json_result resp = inl (PyDict d) /\ dict_get d "detail" = Some v.
Proof.
  unfold json_detail. split.
  - destruct (str_contains _ _); [|discriminate].
    destruct (json_result resp) as [[]|]; try discriminate.
    intros H. split; [reflexivity|]. eexists; split; [reflexivity | exact H].
  - intros [Hct [d [Hjs Hd]]]. rewrite Hct, Hjs. exact Hd.
Qed.

(** C2: the message of the failure raised for an error response is the one
    the detail extraction policy gives.  When the content type holds
    [application/json] and the body parses to a mapping with a [detail]
    key, it is [str] of that value, hence the value itself when it is a
    string; otherwise it is the trimmed body, or [HTTP <status_code>] when
    the trimmed body is empty.  Extraction itself never raises. *)
Theorem error_message_is_extracted_detail
        (w : World) (path : string) (params : option (list (string * pyval)))
        (resp : Response) :
  server w (request_of path params) = inl resp ->
  400 <= status_code resp < 600 ->
  exists cls message,
    _get path params w =
      (Raise (LibraryError cls message (Some (status_code resp))),
       after w (request_of path params))
    /\ (forall w', _extract_detail resp w' = (Return message, w'))
    /\ message = detail_policy resp
    /\ (forall d v,
           str_contains "application/json" (content_type resp) = true ->
           json_result resp = inl (PyDict d) ->
           dict_get d "detail" = Some v ->
           message = py_str v)
    /\ (forall d msg,
           str_contains "application/json" (content_type resp) = true ->
           json_result resp = inl (PyDict d) ->
           dict_get d "detail" = Some (PyStr msg) ->
           message = msg)
    /\ (~ (str_contains "application/json" (content_type resp) = true
           /\ exists d v, json_result resp = inl (PyDict d)
                          /\ dict_get d "detail" = Some v) ->
        (str_strip (text resp) <> EmptyString -> message = str_strip (text resp))
        /\ (str_strip (text resp) = EmptyString ->
            message = "HTTP " ++ int_str (status_code resp))).
Proof.
  intros Hsrv Hsc. pose proof (get_run _ _ _ _ Hsrv) as Hrun.
  assert (Hk : exists cls, failure_kind (status_code resp) = Some cls).
  { unfold failure_kind.
    destruct (Z.eqb_spec (status_code resp) 400); [eauto|].
    destruct (Z.eqb_spec (status_code resp) 404); [eauto|].
    rewrite failure_kind_other in * by assumption.
    destruct ((400 <=? status_code resp) && (status_code resp <? 600)) eqn:E;
      [eauto|]. apply andb_false_iff in E. lia. }
  destruct Hk as [cls Hk]. rewrite Hk in Hrun.
  exists cls, (detail_policy resp).
  split; [exact Hrun|]. split; [intros w'; apply extract_detail_run|].
  split; [reflexivity|].
  assert (Hsome : forall d v,
             str_contains "application/json" (content_type resp) = true ->
             json_result resp = inl (PyDict d) ->
             dict_get d "detail" = Some v ->
             detail_policy resp = py_str v).
  { intros d v Hct Hjs Hd. unfold detail_policy.
    replace (json_detail resp) with (Some v); [reflexivity|].
    symmetry. apply json_detail_some. eauto. }
  split; [exact Hsome|]. split.
  - intros d msg Hct Hjs Hd. apply (Hsome d (PyStr msg)); assumption.
  - intros Hno.
    assert (Hnone : json_detail resp = None).
    { destruct (json_detail resp) as [v|] eqn:E; [|reflexivity].
      apply json_detail_some in E. destruct E as [Hct [d [Hjs Hd]]].
      elim Hno. eauto. }
    unfold detail_policy. rewrite Hnone. cbv zeta.
    destruct (String.eqb_spec (str_strip (text resp)) EmptyString) as [E|N];
      split; intros H; congruence.
Qed.

Lemma error_message_is_extracted_detail_witness :
  (exists cls message,
      _get "/data" None (always resp_400)
      = (Raise (LibraryError cls message (Some 400)),
         after (always resp_400) (request_of "/data" None))
      /\ message = "start_year must be <= end_year")
  /\ (exists cls message,
         _get "/data" None (always resp_404)
         = (Raise (LibraryError cls message (Some 404)),
            after (always resp_404) (request_of "/data" None))
         /\ message = "HTTP 404")
  /\ (exists cls message,
         _get "/data" None (always resp_503)
         = (Raise (LibraryError cls message (Some 503)),
            after (always resp_503) (request_of "/data" None))
         /\ message = "Service Unavailable").
Proof.
  split; [|split].
  - destruct (error_message_is_extracted_detail
                (always resp_400) "/data" None resp_400 eq_refl)
      as [cls [message [Hrun [_ [Hmsg _]]]]]; [simpl; lia|].
    exists cls, message. split; [exact Hrun | exact Hmsg].
  - destruct (error_message_is_extracted_detail
                (always resp_404) "/data" None resp_404 eq_refl)
      as [cls [message [Hrun [_ [Hmsg _]]]]]; [simpl; lia|].
    exists cls, message. split; [exact Hrun | exact Hmsg].
  - destruct (error_message_is_extracted_detail
                (always resp_503) "/data" None resp_503 eq_refl)
      as [cls [message [Hrun [_ [Hmsg _]]]]]; [simpl; lia|].
    exists cls, message. split; [exact Hrun | exact Hmsg].
Defined.

(* ===================================================================== *)
(** * Decoding *)
(* ===================================================================== *)

(** C3: for a successful response, a content type that starts with
    [application/json] makes [_get] return the value [json()] decoded,
    unchanged; any other content type makes it return exactly
    [{"raw": resp.text}]. *)
Theorem success_decoding
        (w : World) (path : string) (params : option (list (string * pyval)))
        (resp : Response) :
  server w (request_of path params) = inl resp ->
  200 <= status_code resp < 300 ->
  (forall v,
      str_startswith (content_type resp) "application/json" = true ->
      json_result resp = inl v ->
      _get path params w = (Return v, after w (request_of path params)))
  /\ (str_startswith (content_type resp) "application/json" = false ->
      _get path params w =
        (Return (PyDict [("raw", PyStr (text resp))]),
         after w (request_of path params))).
Proof.
  intros Hsrv Hsc.
  apply (get_decodes w path params resp Hsrv).
  apply failure_kind_none. lia.
Qed.

Lemma success_decoding_witness :
  _get "/" None (always resp_200_json)
  = (Return welcome, after (always resp_200_json) (request_of "/" None))
  /\ _get "/" None (always resp_200_text)
     = (Return (PyDict [("raw", PyStr "pong")]),
        after (always resp_200_text) (request_of "/" None)).
Proof.
  split.
  - apply (success_decoding (always resp_200_json) "/" None resp_200_json);
      [reflexivity | simpl; lia | reflexivity | reflexivity].
  - apply (success_decoding (always resp_200_text) "/" None resp_200_text);
      [reflexivity | simpl; lia | reflexivity].
Defined.

(** C4 fails on the code: a 200 that declares JSON and carries a body
    [json()] cannot decode makes [_get] let the [JSONDecodeError] of
    [requests] through, which is no [MacroAPIError]; a handler for the base
    class does not see it. *)
Lemma undecodable_json_escapes_classification :
  200 <= status_code resp_200_bad_json < 300
  /\ str_startswith (content_type resp_200_bad_json) "application/json" = true
  /\ json_result resp_200_bad_json = no_json
  /\ _get "/data" None (always resp_200_bad_json)
     = (Raise (ForeignError JSONDecodeError "Expecting value: line 1 column 1 (char 0)"),
        after (always resp_200_bad_json) (request_of "/data" None))
  /\ isinstance (ForeignError JSONDecodeError "Expecting value: line 1 column 1 (char 0)")
       (Macro MacroAPIError) = false
  /\ (forall handler,
         try_except (_get "/data" None) (Macro MacroAPIError) handler
           (always resp_200_bad_json)
         = _get "/data" None (always resp_200_bad_json)).
Proof.
  repeat split; try reflexivity; cbn; lia.
Qed.

(* ===================================================================== *)
(** * Transport failures *)
(* ===================================================================== *)

(** C5: when [requests.get] raises a [RequestException], [_get] raises the
    base [MacroAPIError], neither [BadRequest] nor [NotFound], with no
    status code and a message that holds both the URL it called and the
    transport's own message. *)
Theorem transport_failure
        (w : World) (path : string) (params : option (list (string * pyval)))
        (e : exn) :
  server w (request_of path params) = inr e ->
  isinstance e (Requests RequestException) = true ->
  exists message,
    _get path params w =
      (Raise (LibraryError MacroAPIError message None),
       after w (request_of path params))
    /\ message = "Network error calling " ++ (_BASE_URL ++ path) ++ ": " ++ exc_str e
    /\ str_contains (_BASE_URL ++ path) message = true
    /\ str_contains (exc_str e) message = true
    /\ isinstance (LibraryError MacroAPIError message None) (Macro BadRequest) = false
    /\ isinstance (LibraryError MacroAPIError message None) (Macro NotFound) = false.
Proof.
  intros Hsrv Hinst. eexists. split; [|split; [reflexivity|]].
  - apply get_run_unreachable; assumption.
  - split; [|split; [|split; reflexivity]].
    + apply str_contains_skip, str_contains_prefix, prefix_append.
    + apply str_contains_skip.
      apply (str_contains_skip _ (_BASE_URL ++ path)).
      apply str_contains_skip, str_contains_prefix, prefix_refl.
Qed.

Lemma transport_failure_witness :
  isinstance connection_refused (Requests RequestException) = true
  /\ exists message,
      _get "/data" None (failing connection_refused)
      = (Raise (LibraryError MacroAPIError message None),
         after (failing connection_refused) (request_of "/data" None))
      /\ message
         = "Network error calling https://macro-indicators.fly.dev/data: Connection refused".
Proof.
  split; [reflexivity|].
  destruct (transport_failure (failing connection_refused) "/data" None
              connection_refused eq_refl eq_refl)
    as [message [Hrun [Hmsg _]]].
  exists message. split; [exact Hrun | exact Hmsg].
Defined.

(* ===================================================================== *)
(** * The public functions *)
(* ===================================================================== *)

(** Every call of [_get] puts exactly one request on the wire: the base
    URL followed by the path, the parameters as given, the fixed timeout. *)
Lemma get_sends_one_request
      (w : World) (path : string) (params : option (list (string * pyval))) :
  sent (snd (_get path params w)) = (sent w ++ [request_of path params])%list.
Proof.
  destruct (server w (request_of path params)) as [resp|e] eqn:Hsrv.
  - rewrite (get_run _ _ _ _ Hsrv).
    destruct (failure_kind (status_code resp)); [reflexivity|].
    unfold requests.json, ret, raise.
    destruct (str_startswith _ _); [|reflexivity].
    destruct (json_result resp); reflexivity.
  - unfold request_of in Hsrv. unfold _get, request_of.
    unfold bind at 1. unfold try_except at 1. unfold requests.get.
    rewrite Hsrv.
    destruct (isinstance e (Requests RequestException)); reflexivity.
Qed.

(** C6: each public function is [_get] at its own path and parameters and
    nothing more, and the one request it sends goes to
    [https://macro-indicators.fly.dev] followed by that path, with a
    timeout of 30. *)
Theorem public_functions_are_get
        (w : World) (country_code indicator start_year end_year : pyval) :
  (root = _get "/" None
   /\ get_country_codes = _get "/country-codes" None
   /\ get_countries_with_names = _get "/countries" None
   /\ get_indicators = _get "/indicators" None
   /\ get_country_data country_code indicator start_year end_year
      = _get "/data"
          (Some [("country_code", country_code); ("indicator", indicator);
                 ("start_year", start_year); ("end_year", end_year)]))
  /\ sent (snd (root w))
     = (sent w ++ [mkRequest "https://macro-indicators.fly.dev/" None 30])%list
  /\ sent (snd (get_country_codes w))
     = (sent w ++ [mkRequest "https://macro-indicators.fly.dev/country-codes" None 30])%list
  /\ sent (snd (get_countries_with_names w))
     = (sent w ++ [mkRequest "https://macro-indicators.fly.dev/countries" None 30])%list
  /\ sent (snd (get_indicators w))
     = (sent w ++ [mkRequest "https://macro-indicators.fly.dev/indicators" None 30])%list
  /\ sent (snd (get_country_data country_code indicator start_year end_year w))
     = (sent w ++
        [mkRequest "https://macro-indicators.fly.dev/data"
           (Some [("country_code", country_code); ("indicator", indicator);
                  ("start_year", start_year); ("end_year", end_year)])
           30])%list.
Proof.
  split; [repeat split|].
  unfold root, get_country_codes, get_countries_with_names, get_indicators,
    get_country_data.
  rewrite !get_sends_one_request. repeat split.
Qed.

(* ===================================================================== *)
(** * The failure hierarchy *)
(* ===================================================================== *)

(** C7: [BadRequest] and [NotFound] derive from [MacroAPIError], and they
    are its only subclasses; an instance of the base carries a message and
    an optional integer status code; and a handler for the base class is
    entered for every failure of the three kinds that [_get] raises. *)
Theorem failure_hierarchy :
  base (Macro BadRequest) = Some (Macro MacroAPIError)
  /\ base (Macro NotFound) = Some (Macro MacroAPIError)
  /\ (forall c,
         issubclass c (Macro MacroAPIError) = true <->
         c = Macro MacroAPIError \/ c = Macro BadRequest \/ c = Macro NotFound)
  /\ (forall e,
         isinstance e (Macro MacroAPIError) = true ->
         exists (cls : MacroClass) (message : string) (status_code : option Z),
           e = LibraryError cls message status_code /\ exc_str e = message)
  /\ (forall w path params cls message sc w' (handler : exn -> Net pyval),
         _get path params w = (Raise (LibraryError cls message sc), w') ->
         try_except (_get path params) (Macro MacroAPIError) handler w
         = handler (LibraryError cls message sc) w').
Proof.
  split; [reflexivity|]. split; [reflexivity|]. split; [|split].
  - intros c. split.
    + destruct c as [| | |[]|[]]; cbn; intros H; try discriminate H; auto.
    + intros [->|[->| ->]]; reflexivity.
  - intros [cls message sc|cls message]; intros H.
    + exists cls, message, sc. split; reflexivity.
    + destruct cls; discriminate H.
  - intros w path params cls message sc w' handler Hrun.
    unfold try_except. rewrite Hrun. destruct cls; reflexivity.
Qed.

Lemma failure_hierarchy_witness :
  try_except (_get "/data" None) (Macro MacroAPIError)
    (fun e => ret (PyStr (exc_str e))) (always resp_404)
  = (Return (PyStr "HTTP 404"), after (always resp_404) (request_of "/data" None)).
Proof.
  apply (proj2 (proj2 (proj2 (proj2 failure_hierarchy)))
           (always resp_404) "/data" None NotFound "HTTP 404" (Some 404)
           (after (always resp_404) (request_of "/data" None))
           (fun e => ret (PyStr (exc_str e)))).
  reflexivity.
Defined.

(* ===================================================================== *)
(** * Time series *)
(* ===================================================================== *)




(* ===================================================================== *)
(** * What the failure kind depends on *)
(* ===================================================================== *)







(* ===================================================================== *)
(** * Reading an outcome backwards *)
(* ===================================================================== *)

Lemma failure_kind_some (sc : Z) (k : MacroClass) :
  failure_kind sc = Some k ->
  (k = BadRequest /\ sc = 400)
  \/ (k = NotFound /\ sc = 404)
  \/ (k = MacroAPIError /\ 400 <= sc < 600 /\ sc <> 400 /\ sc <> 404).
Proof.
  unfold failure_kind.
  destruct (Z.eqb_spec sc 400) as [->|N400]; [intros [= <-]; auto|].
  destruct (Z.eqb_spec sc 404) as [->|N404]; [intros [= <-]; auto|].
  destruct ((400 <=? sc) && (sc <? 600)) eqn:E; [|discriminate].
  intros [= <-]. apply andb_true_iff in E. right; right. repeat split; lia.
Qed.

Lemma failure_kind_none_inv (sc : Z) :
  failure_kind sc = None -> sc < 400 \/ 600 <= sc.
Proof.
  unfold failure_kind.
  destruct (Z.eqb_spec sc 400); [discriminate|].
  destruct (Z.eqb_spec sc 404); [discriminate|].
  destruct ((400 <=? sc) && (sc <? 600)) eqn:E; [discriminate|].
  intros _. apply andb_false_iff in E. lia.
Qed.

(** Every exception of [requests] is a [RequestException]. *)
Lemma foreign_is_RequestException (c : RequestsClass) (m : string) :
  isinstance (ForeignError c m) (Requests RequestException) = true.
Proof. destruct c; reflexivity. Qed.

(** An exception of the client is no [RequestException]. *)
Lemma library_not_RequestException (c : MacroClass) (m : string) (sc : option Z) :
  isinstance (LibraryError c m sc) (Requests RequestException) = false.
Proof. destruct c; reflexivity. Qed.

(** The four ways one call of [_get] can go. *)
Lemma get_cases (w : World) (path : string) (params : option (list (string * pyval))) :
  (exists resp cls,
      server w (request_of path params) = inl resp
      /\ failure_kind (status_code resp) = Some cls
      /\ _get path params w =
           (Raise (LibraryError cls (detail_policy resp) (Some (status_code resp))),
            after w (request_of path params)))
  \/ (exists resp,
         server w (request_of path params) = inl resp
         /\ failure_kind (status_code resp) = None
         /\ _get path params w =
              (if str_startswith (content_type resp) "application/json"
               then requests.json resp
               else ret (PyDict [("raw", PyStr (text resp))]))
                (after w (request_of path params)))
  \/ (exists c m,
         server w (request_of path params) = inr (ForeignError c m)
         /\ _get path params w =
              (Raise (LibraryError MacroAPIError
                        ("Network error calling " ++ (_BASE_URL ++ path) ++ ": " ++ m)
                        None),
               after w (request_of path params)))
  \/ (exists c m sc,
         server w (request_of path params) = inr (LibraryError c m sc)
         /\ _get path params w =
              (Raise (LibraryError c m sc), after w (request_of path params))).
Proof.
  destruct (server w (request_of path params)) as [resp|e] eqn:Hsrv.
  - pose proof (get_run _ _ _ _ Hsrv) as Hrun.
    destruct (failure_kind (status_code resp)) as [cls|] eqn:Hk.
    + left. exists resp, cls. auto.
    + right; left. exists resp. auto.
  - destruct e as [c m sc|c m].
    + right; right; right. exists c, m, sc. split; [reflexivity|].
      unfold request_of in Hsrv. unfold _get, after, request_of.
      unfold bind at 1. unfold try_except at 1. unfold requests.get.
      rewrite Hsrv, library_not_RequestException. reflexivity.
    + right; right; left. exists c, m. split; [reflexivity|].
      apply (get_run_unreachable _ _ _ _ Hsrv), foreign_is_RequestException.
Qed.

(** What the decoding step can yield. *)
Lemma decoding_cases (resp : Response) (w : World) :
  (str_startswith (content_type resp) "application/json" = true
   /\ exists v, json_result resp = inl v
                /\ (if str_startswith (content_type resp) "application/json"
                    then requests.json resp
                    else ret (PyDict [("raw", PyStr (text resp))])) w
                   = (Return v, w))
  \/ (str_startswith (content_type resp) "application/json" = true
      /\ exists m, json_result resp = inr m
                   /\ (if str_startswith (content_type resp) "application/json"
                       then requests.json resp
                       else ret (PyDict [("raw", PyStr (text resp))])) w
                      = (Raise (ForeignError JSONDecodeError m), w))
  \/ (str_startswith (content_type resp) "application/json" = false
      /\ (if str_startswith (content_type resp) "application/json"
          then requests.json resp
          else ret (PyDict [("raw", PyStr (text resp))])) w
         = (Return (PyDict [("raw", PyStr (text resp))]), w)).
Proof.
  unfold requests.json, ret, raise.
  destruct (str_startswith _ _).
  - destruct (json_result resp) as [v|m]; [left|right; left]; eauto.
  - right; right. auto.
Qed.

(** X1: the class of a failure tells what happened.  Provided
    [requests.get] raises only exceptions of [requests], a [BadRequest]
    out of [_get] means the server answered with status 400, a [NotFound]
    that it answered with 404, and a plain [MacroAPIError] either that it
    answered with another status from 400 to 599 or that the request got no
    answer; the status code and the message are those of that event. *)
Theorem failure_class_tells_status
        (w : World) (path : string) (params : option (list (string * pyval)))
        (cls : MacroClass) (msg : string) (sc : option Z) :
  (forall e, server w (request_of path params) = inr e ->
             exists c m, e = ForeignError c m) ->
  fst (_get path params w) = Raise (LibraryError cls msg sc) ->
  match cls with
  | BadRequest =>
      exists resp, server w (request_of path params) = inl resp
                   /\ status_code resp = 400 /\ sc = Some 400
                   /\ msg = detail_policy resp
  | NotFound =>
      exists resp, server w (request_of path params) = inl resp
                   /\ status_code resp = 404 /\ sc = Some 404
                   /\ msg = detail_policy resp
  | MacroAPIError =>
      (exists resp, server w (request_of path params) = inl resp
                    /\ 400 <= status_code resp < 600
                    /\ status_code resp <> 400 /\ status_code resp <> 404
                    /\ sc = Some (status_code resp)
                    /\ msg = detail_policy resp)
      \/ (exists c m, server w (request_of path params) = inr (ForeignError c m)
                      /\ sc = None
                      /\ msg = "Network error calling " ++ (_BASE_URL ++ path)
                                 ++ ": " ++ m)
  end.
Proof.
  intros Htr Hraise.
  destruct (get_cases w path params)
    as [[resp [k [Hsrv [Hk Hrun]]]]
       |[[resp [Hsrv [Hk Hrun]]]
        |[[c [m [Hsrv Hrun]]]
         |[c [m [sc' [Hsrv Hrun]]]]]]];
    rewrite Hrun in Hraise; cbn [fst] in Hraise.
  - injection Hraise as -> <- <-.
    destruct (failure_kind_some _ _ Hk) as [[-> E]|[[-> E]|[-> [R [N4 N5]]]]].
    + exists resp. rewrite E. repeat split; assumption.
    + exists resp. rewrite E. repeat split; assumption.
    + left. exists resp. repeat split; solve [assumption | apply R].
  - exfalso. revert Hraise. apply decoding_not_library.
  - injection Hraise as <- <- <-. right. exists c, m. repeat split; assumption.
  - exfalso. destruct (Htr _ Hsrv) as [c' [m' E]]. discriminate E.
Qed.

Lemma failure_class_tells_status_witness :
  (exists resp, server (always resp_404) (request_of "/data" None) = inl resp
                /\ status_code resp = 404 /\ Some 404 = Some 404
                /\ "HTTP 404" = detail_policy resp)
  /\ ((exists resp, server (failing connection_refused) (request_of "/" None) = inl resp
                    /\ 400 <= status_code resp < 600
                    /\ status_code resp <> 400 /\ status_code resp <> 404
                    /\ None = Some (status_code resp)
                    /\ "Network error calling https://macro-indicators.fly.dev/: Connection refused"
                       = detail_policy resp)
      \/ (exists c m, server (failing connection_refused) (request_of "/" None)
                      = inr (ForeignError c m)
                      /\ @None Z = None
                      /\ "Network error calling https://macro-indicators.fly.dev/: Connection refused"
                         = "Network error calling " ++ (_BASE_URL ++ "/") ++ ": " ++ m)).
Proof.
  split.
  - apply (failure_class_tells_status (always resp_404) "/data" None
             NotFound "HTTP 404" (Some 404)).
    + intros e H. discriminate H.
    + reflexivity.
  - apply (failure_class_tells_status (failing connection_refused) "/" None
             MacroAPIError
             "Network error calling https://macro-indicators.fly.dev/: Connection refused"
             None).
    + intros e H. injection H as <-. eexists. eexists. reflexivity.
    + reflexivity.
Defined.

(** X2: provided [requests.get] raises only exceptions of [requests], a
    failure of the client has no status code exactly when the request got
    no answer. *)
Theorem status_code_absent_iff_unanswered
        (w : World) (path : string) (params : option (list (string * pyval)))
        (cls : MacroClass) (msg : string) (sc : option Z) :
  (forall e, server w (request_of path params) = inr e ->
             exists c m, e = ForeignError c m) ->
  fst (_get path params w) = Raise (LibraryError cls msg sc) ->
  (sc = None <-> exists e, server w (request_of path params) = inr e).
Proof.
  intros Htr Hraise.
  destruct (get_cases w path params)
    as [[resp [k [Hsrv [Hk Hrun]]]]
       |[[resp [Hsrv [Hk Hrun]]]
        |[[c [m [Hsrv Hrun]]]
         |[c [m [sc' [Hsrv Hrun]]]]]]];
    rewrite Hrun in Hraise; cbn [fst] in Hraise.
  - injection Hraise as _ _ <-. split; [discriminate|].
    intros [e He]. rewrite Hsrv in He. discriminate He.
  - exfalso. revert Hraise. apply decoding_not_library.
  - injection Hraise as _ _ <-. split; [eauto|reflexivity].
  - exfalso. destruct (Htr _ Hsrv) as [c' [m' E]]. discriminate E.
Qed.

Lemma status_code_absent_iff_unanswered_witness :
  (@None Z = None <->
   exists e, server (failing connection_refused) (request_of "/" None) = inr e)
  /\ (Some 404 = None <->
      exists e, server (always resp_404) (request_of "/" None) = inr e).
Proof.
  split.
  - apply (status_code_absent_iff_unanswered (failing connection_refused) "/" None
             MacroAPIError
             "Network error calling https://macro-indicators.fly.dev/: Connection refused"
             None).
    + intros e H. injection H as <-. eexists. eexists. reflexivity.
    + reflexivity.
  - apply (status_code_absent_iff_unanswered (always resp_404) "/" None
             NotFound "HTTP 404" (Some 404)).
    + intros e H. discriminate H.
    + reflexivity.
Defined.

(** X3: [_get] returns a value only for an answer whose status is outside
    400..599, and the value is then the decoded JSON of a body whose content
    type starts with [application/json], or the body wrapped under [raw]. *)
Theorem return_means_non_error_status
        (w : World) (path : string) (params : option (list (string * pyval)))
        (v : pyval) :
  fst (_get path params w) = Return v ->
  exists resp,
    server w (request_of path params) = inl resp
    /\ (status_code resp < 400 \/ 600 <= status_code resp)
    /\ ((str_startswith (content_type resp) "application/json" = true
         /\ json_result resp = inl v)
        \/ (str_startswith (content_type resp) "application/json" = false
            /\ v = PyDict [("raw", PyStr (text resp))])).
Proof.
  intros Hret.
  destruct (get_cases w path params)
    as [[resp [k [Hsrv [Hk Hrun]]]]
       |[[resp [Hsrv [Hk Hrun]]]
        |[[c [m [Hsrv Hrun]]]
         |[c [m [sc' [Hsrv Hrun]]]]]]];
    rewrite Hrun in Hret; cbn [fst] in Hret; try discriminate Hret.
  exists resp. split; [exact Hsrv|]. split; [apply failure_kind_none_inv, Hk|].
  destruct (decoding_cases resp (after w (request_of path params)))
    as [[Hct [v' [Hjs E]]]|[[Hct [m [Hjs E]]]|[Hct E]]];
    rewrite E in Hret; cbn [fst] in Hret.
  - injection Hret as <-. left. auto.
  - discriminate Hret.
  - injection Hret as <-. right. auto.
Qed.

Lemma return_means_non_error_status_witness :
  exists resp,
    server (always resp_200_json) (request_of "/" None) = inl resp
    /\ (status_code resp < 400 \/ 600 <= status_code resp)
    /\ ((str_startswith (content_type resp) "application/json" = true
         /\ json_result resp = inl welcome)
        \/ (str_startswith (content_type resp) "application/json" = false
            /\ welcome = PyDict [("raw", PyStr (text resp))])).
Proof.
  apply (return_means_non_error_status (always resp_200_json) "/" None welcome).
  reflexivity.
Defined.

(** X5: a handler for [BadRequest] is entered for an error response
    exactly when its status is 400, and a handler for [NotFound] exactly
    when it is 404; every other error response passes the handler
    untouched. *)
Theorem specific_handlers
        (w : World) (path : string) (params : option (list (string * pyval)))
        (resp : Response) (handler : exn -> Net pyval) :
  server w (request_of path params) = inl resp ->
  400 <= status_code resp < 600 ->
  try_except (_get path params) (Macro BadRequest) handler w
  = (if status_code resp =? 400
     then handler (LibraryError BadRequest (detail_policy resp) (Some 400))
            (after w (request_of path params))
     else _get path params w)
  /\ try_except (_get path params) (Macro NotFound) handler w
     = (if status_code resp =? 404
        then handler (LibraryError NotFound (detail_policy resp) (Some 404))
               (after w (request_of path params))
        else _get path params w).
Proof.
  intros Hsrv Hsc. pose proof (get_run _ _ _ _ Hsrv) as Hrun.
  unfold try_except. rewrite Hrun. unfold failure_kind.
  destruct (Z.eqb_spec (status_code resp) 400) as [E4|N4].
  { rewrite E4. split; reflexivity. }
  destruct (Z.eqb_spec (status_code resp) 404) as [E5|N5].
  { rewrite E5. split; reflexivity. }
  destruct ((400 <=? status_code resp) && (status_code resp <? 600)) eqn:E.
  - split; reflexivity.
  - apply andb_false_iff in E. lia.
Qed.

Lemma specific_handlers_witness :
  try_except (_get "/data" None) (Macro BadRequest)
    (fun e => ret (PyStr (exc_str e))) (always resp_400)
  = (Return (PyStr "start_year must be <= end_year"),
     after (always resp_400) (request_of "/data" None))
  /\ try_except (_get "/data" None) (Macro NotFound)
       (fun e => ret (PyStr (exc_str e))) (always resp_503)
     = (Raise (LibraryError MacroAPIError "Service Unavailable" (Some 503)),
        after (always resp_503) (request_of "/data" None)).
Proof.
  split.
  - apply (specific_handlers (always resp_400) "/data" None resp_400
             (fun e => ret (PyStr (exc_str e))));
      [reflexivity | simpl; lia].
  - apply (specific_handlers (always resp_503) "/data" None resp_503
             (fun e => ret (PyStr (exc_str e))));
      [reflexivity | simpl; lia].
Defined.

(* ===================================================================== *)
(** * Content types and header names *)
(* ===================================================================== *)

(** X6: the two tests of the content type are not the same.  Whatever the
    success path takes for JSON (a prefix) the error path takes for JSON
    too (a substring), but not the other way round: with a content type
    that holds [application/json] without starting with it, an error
    response has its JSON [detail] read, while a successful response with
    the same headers and body is not decoded and comes back wrapped under
    [raw]. *)
Theorem content_type_tests_differ :
  (forall ctype,
      str_startswith ctype "application/json" = true ->
      str_contains "application/json" ctype = true)
  /\ (forall (w : World) (path : string) (params : option (list (string * pyval)))
             (resp : Response) (d : list (string * pyval)) (v : pyval),
         server w (request_of path params) = inl resp ->
         str_contains "application/json" (content_type resp) = true ->
         str_startswith (content_type resp) "application/json" = false ->
         json_result resp = inl (PyDict d) ->
         dict_get d "detail" = Some v ->
         (400 <= status_code resp < 600 ->
          exists cls,
            fst (_get path params w)
            = Raise (LibraryError cls (py_str v) (Some (status_code resp))))
         /\ (status_code resp < 400 \/ 600 <= status_code resp ->
             fst (_get path params w) = Return (PyDict [("raw", PyStr (text resp))]))).
Proof.
  split; [intros ctype; apply startswith_contains|].
  intros w path params resp d v Hsrv Hin Hpre Hjs Hd.
  pose proof (get_run _ _ _ _ Hsrv) as Hrun. split.
  - intros Hsc.
    assert (Hdp : detail_policy resp = py_str v).
    { unfold detail_policy, json_detail. rewrite Hin, Hjs, Hd. reflexivity. }
    destruct (failure_kind (status_code resp)) as [cls|] eqn:Hk.
    + exists cls. rewrite Hrun, Hdp. reflexivity.
    + apply failure_kind_none_inv in Hk. lia.
  - intros Hsc. rewrite Hrun, failure_kind_none, Hpre by assumption. reflexivity.
Qed.

Lemma content_type_tests_differ_witness :
  (exists cls,
      fst (_get "/data" None (always resp_500_embedded))
      = Raise (LibraryError cls "boom" (Some 500)))
  /\ fst (_get "/data" None (always resp_200_embedded))
     = Return (PyDict [("raw", PyStr (text resp_200_embedded))]).
Proof.
  split.
  - apply (proj2 content_type_tests_differ (always resp_500_embedded) "/data" None
             resp_500_embedded [("detail", PyStr "boom")] (PyStr "boom"));
      [reflexivity | reflexivity | reflexivity | reflexivity | reflexivity
      | simpl; lia].
  - apply (proj2 content_type_tests_differ (always resp_200_embedded) "/data" None
             resp_200_embedded [("detail", PyStr "boom")] (PyStr "boom"));
      [reflexivity | reflexivity | reflexivity | reflexivity | reflexivity
      | simpl; lia].
Defined.

Lemma headers_get_same (h1 h2 : list (string * string)) (key default : string) :
  same_headers h1 h2 ->
  requests.headers_get h1 key default = requests.headers_get h2 key default.
Proof.
  intros H. induction H as [|[k1 v1] [k2 v2] r1 r2 [Hk Hv] _ IH]; [reflexivity|].
  cbn [fst snd] in Hk, Hv. cbn [requests.headers_get].
  rewrite Hk, Hv, IH. reflexivity.
Qed.

(** X7: the letter case of header names does not matter.  Two answers that
    differ only in how the names of their headers are capitalised make
    [_get] end the same way: the same value, or the same failure with the
    same message. *)
Theorem header_name_case_is_irrelevant
        (w1 w2 : World) (path : string) (params : option (list (string * pyval)))
        (resp : Response) (h : list (string * string)) :
  same_headers (headers resp) h ->
  server w1 (request_of path params) = inl resp ->
  server w2 (request_of path params) = inl (with_headers resp h) ->
  fst (_get path params w1) = fst (_get path params w2).
Proof.
  intros Hh H1 H2.
  rewrite (get_run _ _ _ _ H1), (get_run _ _ _ _ H2).
  assert (Hct : content_type (with_headers resp h) = content_type resp).
  { unfold content_type, with_headers. cbn [headers].
    symmetry. apply headers_get_same, Hh. }
  assert (Hdp : detail_policy (with_headers resp h) = detail_policy resp).
  { unfold detail_policy, json_detail. rewrite Hct. reflexivity. }
  rewrite Hct, Hdp. unfold requests.json, with_headers.
  cbn [status_code json_result text].
  destruct (failure_kind (status_code resp)); [reflexivity|].
  unfold ret, raise.
  destruct (str_startswith _ _); [|reflexivity].
  destruct (json_result resp); reflexivity.
Qed.

Lemma header_name_case_is_irrelevant_witness :
  same_headers (headers resp_400) [("CONTENT-Type", "application/json")]
  /\ fst (_get "/data" None (always resp_400))
     = fst (_get "/data" None
              (always (with_headers resp_400 [("CONTENT-Type", "application/json")]))).
Proof.
  assert (H : same_headers (headers resp_400) [("CONTENT-Type", "application/json")]).
  { repeat constructor. }
  split; [exact H|].
  apply (header_name_case_is_irrelevant
           (always resp_400)
           (always (with_headers resp_400 [("CONTENT-Type", "application/json")]))
           "/data" None resp_400 [("CONTENT-Type", "application/json")] H);
    reflexivity.
Defined.

(** X8: a raw body and a JSON mapping with the single key [raw] cannot be
    told apart by the caller.  A non-JSON answer with body [t] and a JSON
    answer that decodes to [{"raw": t}] make [_get] return the same
    value. *)
Theorem raw_wrapper_is_ambiguous
        (w1 w2 : World) (path : string) (params : option (list (string * pyval)))
        (plain decoded : Response) (t : string) :
  server w1 (request_of path params) = inl plain ->
  server w2 (request_of path params) = inl decoded ->
  200 <= status_code plain < 300 ->
  200 <= status_code decoded < 300 ->
  str_startswith (content_type plain) "application/json" = false ->
  text plain = t ->
  str_startswith (content_type decoded) "application/json" = true ->
  json_result decoded = inl (PyDict [("raw", PyStr t)]) ->
  fst (_get path params w1) = Return (PyDict [("raw", PyStr t)])
  /\ fst (_get path params w2) = Return (PyDict [("raw", PyStr t)]).
Proof.
  intros H1 H2 S1 S2 Hplain Ht Hjson Hjs.
  rewrite (get_run _ _ _ _ H1), (get_run _ _ _ _ H2).
  rewrite !failure_kind_none by lia.
  rewrite Hplain, Hjson, Ht. unfold requests.json. rewrite Hjs. split; reflexivity.
Qed.

Lemma raw_wrapper_is_ambiguous_witness :
  fst (_get "/" None (always resp_200_text)) = Return (PyDict [("raw", PyStr "pong")])
  /\ fst (_get "/" None (always resp_200_raw_json))
     = Return (PyDict [("raw", PyStr "pong")]).
Proof.
  apply (raw_wrapper_is_ambiguous (always resp_200_text) (always resp_200_raw_json)
           "/" None resp_200_text resp_200_raw_json "pong");
    try reflexivity; simpl; lia.
Defined.

(* ===================================================================== *)
(** * The fallback message *)
(* ===================================================================== *)

Lemma rstrip_cons (c : ascii) (r : string) :
  isspace c = false -> str_rstrip (String c r) = String c (str_rstrip r).
Proof.
  intros Hc. cbn [str_rstrip]. rewrite Hc. destruct (str_rstrip r); reflexivity.
Qed.

Lemma rstrip_idempotent (s : string) : str_rstrip (str_rstrip s) = str_rstrip s.
Proof.
  induction s as [|c r IH]; [reflexivity|].
  cbn [str_rstrip].
  destruct (str_rstrip r) as [|c' r'] eqn:E.
  - destruct (isspace c) eqn:Hc; [reflexivity|].
    cbn [str_rstrip]. rewrite Hc. reflexivity.
  - cbn [str_rstrip] in *. rewrite IH. reflexivity.
Qed.

Lemma lstrip_head (s : string) :
  str_lstrip s = EmptyString
  \/ exists c r, str_lstrip s = String c r /\ isspace c = false.
Proof.
  induction s as [|c r IH]; [left; reflexivity|].
  cbn [str_lstrip]. destruct (isspace c) eqn:Hc; [exact IH|].
  right. exists c, r. split; [reflexivity | exact Hc].
Qed.

(** [strip] leaves a stripped text as it is. *)
Lemma strip_idempotent (s : string) : str_strip (str_strip s) = str_strip s.
Proof.
  unfold str_strip.
  destruct (lstrip_head s) as [E|[c [r [E Hc]]]]; rewrite E.
  - reflexivity.
  - rewrite (rstrip_cons c r Hc). cbn [str_lstrip]. rewrite Hc.
    rewrite <- (rstrip_cons c r Hc). apply rstrip_idempotent.
Qed.

Lemma rstrip_no_space (s : string) : no_space s = true -> str_rstrip s = s.
Proof.
  induction s as [|c r IH]; [reflexivity|].
  cbn [no_space]. intros H. apply andb_true_iff in H. destruct H as [Hc Hr].
  apply negb_true_iff in Hc. rewrite (rstrip_cons c r Hc), (IH Hr). reflexivity.
Qed.

Lemma rstrip_append (t u : string) :
  str_rstrip u = u -> u <> EmptyString -> str_rstrip (t ++ u) = t ++ u.
Proof.
  intros Hu Hne. induction t as [|c t IH]; [exact Hu|].
  cbn [append str_rstrip]. rewrite IH.
  destruct (t ++ u) eqn:E; [|reflexivity].
  destruct t; [cbn in E; congruence | discriminate E].
Qed.

Lemma uint_no_space (d : Decimal.uint) : no_space (NilEmpty.string_of_uint d) = true.
Proof. induction d; cbn [NilEmpty.string_of_uint no_space]; try rewrite IHd; reflexivity. Qed.

(** [str(n)] is never empty and holds no white space. *)
Lemma int_str_solid (n : Z) : int_str n <> EmptyString /\ no_space (int_str n) = true.
Proof.
  unfold int_str. destruct (Z.to_int n) as [d|d]; cbn [NilZero.string_of_int].
  - destruct d; (split; [discriminate|]); try reflexivity;
      apply (uint_no_space (_ d)).
  - split; [discriminate|]. cbn [no_space].
    destruct d; try reflexivity; apply (uint_no_space (_ d)).
Qed.

Lemma strip_http_status (n : Z) :
  str_strip ("HTTP " ++ int_str n) = "HTTP " ++ int_str n.
Proof.
  destruct (int_str_solid n) as [Hne Hns].
  unfold str_strip. change (str_lstrip ("HTTP " ++ int_str n)) with ("HTTP " ++ int_str n).
  apply rstrip_append; [apply rstrip_no_space, Hns | exact Hne].
Qed.

(** X9: when an error response offers no JSON [detail], the message of the
    failure is never empty and has no white space at either end: it is the
    body, stripped, or [HTTP <status_code>] when nothing is left of the
    body. *)
Theorem fallback_message_is_trimmed
        (w : World) (path : string) (params : option (list (string * pyval)))
        (resp : Response) :
  server w (request_of path params) = inl resp ->
  400 <= status_code resp < 600 ->
  ~ (str_contains "application/json" (content_type resp) = true
     /\ exists d v, json_result resp = inl (PyDict d) /\ dict_get d "detail" = Some v) ->
  exists cls message,
    fst (_get path params w)
    = Raise (LibraryError cls message (Some (status_code resp)))
    /\ message <> EmptyString
    /\ str_strip message = message.
Proof.
  intros Hsrv Hsc Hno.
  assert (Hnone : json_detail resp = None).
  { destruct (json_detail resp) as [v|] eqn:E; [|reflexivity].
    apply json_detail_some in E. destruct E as [Hct [d [Hjs Hd]]].
    elim Hno. eauto. }
  destruct (failure_kind (status_code resp)) as [cls|] eqn:Hk;
    [|apply failure_kind_none_inv in Hk; lia].
  exists cls, (detail_policy resp).
  split; [rewrite (get_run _ _ _ _ Hsrv), Hk; reflexivity|].
  unfold detail_policy. rewrite Hnone. cbv zeta.
  destruct (String.eqb_spec (str_strip (text resp)) EmptyString) as [E|N].
  - split; [discriminate | apply strip_http_status].
  - split; [exact N | apply strip_idempotent].
Qed.

Lemma fallback_message_is_trimmed_witness :
  (exists cls message,
      fst (_get "/data" None (always resp_503))
      = Raise (LibraryError cls message (Some (status_code resp_503)))
      /\ message <> EmptyString /\ str_strip message = message)
  /\ (exists cls message,
         fst (_get "/data" None (always resp_404))
         = Raise (LibraryError cls message (Some (status_code resp_404)))
         /\ message <> EmptyString /\ str_strip message = message).
Proof.
  split.
  - apply (fallback_message_is_trimmed (always resp_503) "/data" None resp_503);
      [reflexivity | simpl; lia |].
    intros [H _]. discriminate H.
  - apply (fallback_message_is_trimmed (always resp_404) "/data" None resp_404);
      [reflexivity | simpl; lia |].
    intros [H _]. discriminate H.
Defined.

(* ===================================================================== *)
(** * What an outcome is read from *)
(* ===================================================================== *)

(** X10: the outcome of a call is read from four things only: the status
    code, the value of the content-type header, the body text and what
    [json()] makes of the body.  Two answers that agree on these make any
    two calls end the same way, whichever paths and parameters were asked
    for and whatever the reason phrase, the URL and the other headers of
    the answers. *)
Theorem outcome_reads_four_things
        (w1 w2 : World) (path1 path2 : string)
        (params1 params2 : option (list (string * pyval)))
        (resp1 resp2 : Response) :
  server w1 (request_of path1 params1) = inl resp1 ->
  server w2 (request_of path2 params2) = inl resp2 ->
  status_code resp1 = status_code resp2 ->
  content_type resp1 = content_type resp2 ->
  text resp1 = text resp2 ->
  json_result resp1 = json_result resp2 ->
  fst (_get path1 params1 w1) = fst (_get path2 params2 w2).
Proof.
  intros H1 H2 Hsc Hct Htx Hjs.
  rewrite (get_run _ _ _ _ H1), (get_run _ _ _ _ H2).
  assert (Hdp : detail_policy resp1 = detail_policy resp2).
  { unfold detail_policy, json_detail. rewrite Hsc, Hct, Htx, Hjs. reflexivity. }
  rewrite Hsc, Hct, Hdp, Htx. unfold requests.json. rewrite Hjs.
  destruct (failure_kind (status_code resp2)); [reflexivity|].
  unfold ret, raise.
  destruct (str_startswith _ _); [|reflexivity].
  destruct (json_result resp2); reflexivity.
Qed.

Lemma outcome_reads_four_things_witness :
  fst (root (always resp_404))
  = fst (get_country_data (PyStr "XXX") (PyStr "M2_LCU") (PyInt 2010) (PyInt 2015)
           (always (mkResponse 404 "Nothing Here" "https://macro-indicators.fly.dev/"
                      [("Server", "uvicorn")] EmptyString no_json))).
Proof.
  apply (outcome_reads_four_things
           (always resp_404)
           (always (mkResponse 404 "Nothing Here" "https://macro-indicators.fly.dev/"
                      [("Server", "uvicorn")] EmptyString no_json))
           "/" "/data" None
           (Some [("country_code", PyStr "XXX"); ("indicator", PyStr "M2_LCU");
                  ("start_year", PyInt 2010); ("end_year", PyInt 2015)])
           resp_404
           (mkResponse 404 "Nothing Here" "https://macro-indicators.fly.dev/"
              [("Server", "uvicorn")] EmptyString no_json));
    reflexivity.
Defined.
